(** * Feature union over heterogeneous data: the notebook's transformers

    A shallow embedding of the estimator classes defined in
    [_posts/scikit/feature-union/feature-union.ipynb]
    ([ItemSelector], [TextStats], [SubjectBodyExtractor]) and of the
    pipeline configuration built from them, together with the properties
    the specification states about them. *)

From Stdlib Require Import Ascii QArith Qcanon.
From stdpp Require Import gmap strings list fin_maps.

Local Open Scope stdpp_scope.

(** ** Python values, exceptions and results *)

(** The exceptions the modelled operations can raise.  [KeyError] and
    [IndexError] are the two subclasses of Python's [LookupError]. *)
Inductive exception : Set :=
  | KeyError
  | IndexError
  | ValueError.

Definition is_LookupError (e : exception) : bool :=
  match e with
  | KeyError | IndexError => true
  | ValueError => false
  end.

(** A computation either raises or returns. *)
Definition result (A : Type) : Type := exception + A.

Definition raise {A : Type} (e : exception) : result A := inl e.
Definition ret {A : Type} (a : A) : result A := inr a.

Definition bind {A B : Type} (m : result A) (k : A → result B) : result B :=
  match m with
  | inl e => inl e
  | inr a => k a
  end.

Notation "'do' x <- m ; k" := (bind m (fun x => k))
  (at level 10, x name, m at level 100, k at level 200,
   format "'[v' 'do'  x  <-  m ; '/' k ']'").

(** ** Python's [str] methods used by the notebook *)

Module Py.

Definition LF : ascii := "010"%char.
Definition CR : ascii := "013"%char.

(** [len(s)] *)
Definition len (s : string) : nat := String.length s.

(** [s.startswith(prefix)] *)
Fixpoint startswith (s prefix : string) {struct prefix} : bool :=
  match prefix with
  | EmptyString => true
  | String p prefix' =>
      match s with
      | EmptyString => false
      | String c s' => Ascii.eqb c p && startswith s' prefix'
      end
  end.

(** [s[n:]] for [0 <= n] *)
Fixpoint slice_from (n : nat) (s : string) : string :=
  match n with
  | O => s
  | S n' =>
      match s with
      | EmptyString => EmptyString
      | String _ s' => slice_from n' s'
      end
  end.

(** The first occurrence of [sep] in [s], as the text before it and the
    text after it. *)
Fixpoint find_sep (sep s : string) : option (string * string) :=
  if startswith s sep then Some (EmptyString, slice_from (len sep) s)
  else
    match s with
    | EmptyString => None
    | String c s' =>
        match find_sep sep s' with
        | Some (before, after) => Some (String c before, after)
        | None => None
        end
    end.

(** [s.partition(sep)]: split at the first occurrence of [sep]; when
    [sep] does not occur the result is [(s, '', '')]. *)
Definition partition (s sep : string) : string * string * string :=
  match find_sep sep s with
  | Some (before, after) => (before, sep, after)
  | None => (s, EmptyString, EmptyString)
  end.

(** [s.split(c)] for a one-character separator [c]. *)
Fixpoint split (s : string) (c : ascii) : list string :=
  match s with
  | EmptyString => [EmptyString]
  | String a s' =>
      if Ascii.eqb a c then EmptyString :: split s' c
      else
        match split s' c with
        | line :: lines => String a line :: lines
        | [] => [String a EmptyString]
        end
  end.

(** [s.count(c)] for a one-character pattern [c]. *)
Fixpoint count (s : string) (c : ascii) : nat :=
  match s with
  | EmptyString => 0
  | String a s' => (if Ascii.eqb a c then 1 else 0) + count s' c
  end.

(** [sep.join(lines)] for a one-character [sep]; only used to state
    that [split] loses nothing. *)
Fixpoint join (c : ascii) (lines : list string) : string :=
  match lines with
  | [] => EmptyString
  | [line] => line
  | line :: lines' => line +:+ String c (join c lines')
  end.

(** [sep in s] *)
Definition occurs (sep s : string) : Prop :=
  ∃ before after, s = before +:+ sep +:+ after.

End Py.

(** ** Data model *)

(** Entries of an array of dtype [object]: [None] until assigned, then the
    string that was stored. *)
Inductive pyobj : Set :=
  | PyNone
  | PyStr (s : string).

(** A Field Batch: field name to the per-document sequence.  A numpy record
    array with named fields is carried the same way, one column per field. *)
Abbreviation FieldBatch := (gmap string (list pyobj)).

(** A Feature Matrix, as the list of its rows. *)
Abbreviation matrix := (list (list Qc)).

(** A float literal of the notebook, read as the exact rational it
    denotes; rounding is not modelled. *)
Definition float_lit (q : Q) : Qc := Q2Qc q.

(** [np.recarray(shape=(n,), dtype=[(f, object) for f in fields])] *)
Definition np_recarray (n : nat) (fields : list string) : FieldBatch :=
  list_to_map ((λ f, (f, replicate n PyNone)) <$> fields).

(** [a[f]]: the column of field [f]; numpy reports a field name the array
    does not have as a [ValueError]. *)
Definition rec_field (a : FieldBatch) (f : string) : result (list pyobj) :=
  match a !! f with
  | Some col => ret col
  | None => raise ValueError
  end.

(** [a[f][i] = v]: the column is a view on [a], so the store lands in [a];
    an index outside the column raises. *)
Definition rec_store (a : FieldBatch) (f : string) (i : nat) (v : pyobj)
  : result FieldBatch :=
  do col <- rec_field a f;
  if decide (i < length col) then ret (<[f := <[i := v]> col]> a)
  else raise IndexError.

(** The record array with the two columns of the notebook. *)
Definition columns (subjects bodies : list pyobj) : FieldBatch :=
  <["subject" := subjects]> (<["body" := bodies]> ∅).

(** [a[f][i]] read back: [None] when the field or the index is absent. *)
Definition field_at (a : FieldBatch) (f : string) (i : nat) : option pyobj :=
  a !! f ≫= λ col, col !! i.

(** [for i, x in enumerate(xs): st = body st i x], from index [i]. *)
Fixpoint for_enumerate {A S : Type} (body : S → nat → A → result S)
    (i : nat) (xs : list A) (st : S) : result S :=
  match xs with
  | [] => ret st
  | x :: xs' => do st' <- body st i x; for_enumerate body (Datatypes.S i) xs' st'
  end.

(** ** Containers indexed by a key *)

(** [data[key]]: the selector only asks of its argument that it can be
    indexed, and what indexing does, also on a key that is absent, is the
    container's own business. *)
Class GetItem (C V : Type) : Type := getitem : C → string → result V.
#[global] Hint Mode GetItem ! - : typeclass_instances.

(** A dict: a key that is absent raises [KeyError]. *)
Definition dict_getitem {V : Type} (d : gmap string V) (k : string)
  : result V :=
  match d !! k with
  | Some v => ret v
  | None => raise KeyError
  end.

#[global] Instance gmap_GetItem {V : Type} : GetItem (gmap string V) V :=
  dict_getitem.

(** A numpy record array, given by its columns: indexing by a field name
    is [rec_field], which raises [ValueError] for a name that is absent. *)
Record recarray : Type := RecArray { rec_columns : FieldBatch }.

#[global] Instance recarray_GetItem : GetItem recarray (list pyobj) :=
  λ a k, rec_field (rec_columns a) k.

(** ** ItemSelector *)

Module ItemSelector.

Record t : Set := { key : string }.

(** [def fit(self, x, y=None): return self] *)
Definition fit {X Y : Type} (self : t) (x : X) (y : option Y) : t := self.

(** [def transform(self, data_dict): return data_dict[self.key]] *)
Definition transform {C V : Type} `{GetItem C V} (self : t) (data_dict : C)
  : result V :=
  getitem data_dict (key self).

End ItemSelector.

(** ** TextStats *)

Module TextStats.

Record t : Set := {}.

Definition fit {X Y : Type} (self : t) (x : X) (y : option Y) : t := self.

(** [[{'length': len(text), 'num_sentences': text.count('.')}
      for text in posts]] *)
Definition transform (self : t) (posts : list string)
  : list (gmap string Z) :=
  (λ text, {[ "length" := Z.of_nat (Py.len text);
              "num_sentences" := Z.of_nat (Py.count text "."%char) ]})
    <$> posts.

End TextStats.

(** ** SubjectBodyExtractor *)

Module SubjectBodyExtractor.

Record t : Set := {}.

Definition fit {X Y : Type} (self : t) (x : X) (y : option Y) : t := self.

(** The inner loop over the header lines, with its [break]. *)
Fixpoint scan_lines (lines : list string) (prefix sub : string) : string :=
  match lines with
  | [] => sub
  | line :: lines' =>
      if Py.startswith line prefix then Py.slice_from (Py.len prefix) line
      else scan_lines lines' prefix sub
  end.

Definition blank_line : string := String Py.LF (String Py.LF EmptyString).

(** The header text of a post and the subject found in it. *)
Definition headers_of (text : string) : string :=
  (Py.partition text blank_line).1.1.

Definition subject_of (text : string) : string :=
  let prefix := "Subject:" in
  let sub := "" in
  scan_lines (Py.split (headers_of text) Py.LF) prefix sub.

Section Cleaning.

(** The two text-cleaning helpers come from
    [sklearn.datasets.twenty_newsgroups]. *)
Variable strip_newsgroup_footer : string → string.
Variable strip_newsgroup_quoting : string → string.

Definition body_of (text : string) : string :=
  let '(_, _, bod) := Py.partition text blank_line in
  let bod := strip_newsgroup_footer bod in
  let bod := strip_newsgroup_quoting bod in
  bod.

(** One iteration of the loop over the posts. *)
Definition step (features : FieldBatch) (i : nat) (text : string)
  : result FieldBatch :=
  let '(headers, _, bod) := Py.partition text blank_line in
  let bod := strip_newsgroup_footer bod in
  let bod := strip_newsgroup_quoting bod in
  do features <- rec_store features "body" i (PyStr bod);
  let prefix := "Subject:" in
  let sub := "" in
  let sub := scan_lines (Py.split headers Py.LF) prefix sub in
  rec_store features "subject" i (PyStr sub).

Definition transform (self : t) (posts : list string)
  : result FieldBatch :=
  let features := np_recarray (length posts) ["subject"; "body"] in
  for_enumerate step 0 posts features.

End Cleaning.

End SubjectBodyExtractor.

(** ** FeatureUnion *)

Module FeatureUnion.

(** Modelled from the spec: the class [FeatureUnion] is imported from
    [sklearn.pipeline] and its body is not in the notebook.  Section 4.4
    of the specification gives its contract: an ordered list of named
    sub-pipelines and a mapping from name to weight (1.0 when a name has
    none). *)
Record t (X : Type) : Type := {
  transformer_list : list (string * (X → result matrix));
  transformer_weights : gmap string Qc
}.
Arguments transformer_list {X} _.
Arguments transformer_weights {X} _.

(** Modelled from the spec: the weight of a named sub-pipeline, 1.0 if
    unspecified. *)
Definition weight_of {X : Type} (self : t X) (name : string) : Qc :=
  default (float_lit 1.0) (transformer_weights self !! name).

(** Modelled from the spec: step 1, run every sub-pipeline over the same
    batch; the first failure is the failure of the whole. *)
Fixpoint run_all {X : Type} (tl : list (string * (X → result matrix)))
    (x : X) : result (list (string * matrix)) :=
  match tl with
  | [] => ret []
  | (name, trans) :: tl' =>
      do M <- trans x;
      do Ms <- run_all tl' x;
      ret ((name, M) :: Ms)
  end.

(** Modelled from the spec: step 2, multiply each entry by the weight. *)
Definition scale (w : Qc) (M : matrix) : matrix :=
  map (map (Qcmult w)) M.

(** Modelled from the spec: step 3, column-wise concatenation in list
    order.  Differing row counts are the fatal consistency violation; the
    spec gives no result for an empty list, which raises here too. *)
Fixpoint hstack (Ms : list matrix) : result matrix :=
  match Ms with
  | [] => raise ValueError
  | [M] => ret M
  | M :: Ms' =>
      do R <- hstack Ms';
      if decide (length M = length R) then ret (zip_with app M R)
      else raise ValueError
  end.

(** Modelled from the spec: the combiner invoked on a batch. *)
Definition transform {X : Type} (self : t X) (x : X) : result matrix :=
  do Ms <- run_all (transformer_list self) x;
  hstack ((λ nM, scale (weight_of self nM.1) nM.2) <$> Ms).

(** Row [i] of a matrix, empty outside it. *)
Definition row (M : matrix) (i : nat) : list Qc := default [] (M !! i).

(** A matrix of [n] rows and [m] columns. *)
Definition has_shape (M : matrix) (n m : nat) : Prop :=
  length M = n ∧ Forall (λ row, length row = m) M.

End FeatureUnion.

(** ** The pipeline of the notebook *)

(** The estimators the notebook instantiates, with the constructor
    arguments it passes. *)
#[warnings="-register-all"]
Inductive estimator : Type :=
  | SubjectBodyExtractor_
  | ItemSelector_ (key : string)
  | TextStats_
  | TfidfVectorizer_ (min_df : option Z)
  | TruncatedSVD_ (n_components : Z)
  | DictVectorizer_
  | SVC_ (kernel : string)
  | Pipeline_ (steps : list (string * estimator))
  | FeatureUnion_ (transformer_list : list (string * estimator))
                  (transformer_weights : gmap string Qc).

(** [dict(...)] of a literal: later entries replace earlier ones. *)
Definition dict_of {V : Type} (items : list (string * V)) : gmap string V :=
  list_to_map (reverse items).

Definition pipeline : estimator :=
  Pipeline_ [
    ("subjectbody", SubjectBodyExtractor_);
    ("union", FeatureUnion_
       [ ("subject", Pipeline_ [
            ("selector", ItemSelector_ "subject");
            ("tfidf", TfidfVectorizer_ (Some 50%Z)) ]);
         ("body_bow", Pipeline_ [
            ("selector", ItemSelector_ "body");
            ("tfidf", TfidfVectorizer_ None);
            ("best", TruncatedSVD_ 50%Z) ]);
         ("body_stats", Pipeline_ [
            ("selector", ItemSelector_ "body");
            ("stats", TextStats_);
            ("vect", DictVectorizer_) ]) ]
       {[ "subject" := float_lit 0.8;
          "body_bow" := float_lit 0.5;
          "body_stats" := float_lit 1.0 ]});
    ("svc", SVC_ "linear")
  ].

(** [Pipeline.named_steps[name]] *)
Definition named_step (p : estimator) (name : string) : option estimator :=
  match p with
  | Pipeline_ steps => dict_of steps !! name
  | _ => None
  end.

(** The names of a union's sub-pipelines, in list order, and its
    [transformer_weights]. *)
Definition union_names (e : estimator) : list string :=
  match e with
  | FeatureUnion_ tl _ => tl.*1
  | _ => []
  end.

Definition union_weights (e : estimator) : gmap string Qc :=
  match e with
  | FeatureUnion_ _ ws => ws
  | _ => ∅
  end.

(** ** Documents used as examples *)

Definition nl : string := String Py.LF EmptyString.
Definition crlf : string := String Py.CR (String Py.LF EmptyString).

(** The post of the specification's example: a header with the line
    [Subject: Hello World], a blank line, and a two-line body. *)
Definition hello_post : string :=
  "From: someone@example.org" +:+ nl +:+ "Subject: Hello World" +:+ nl +:+ nl
  +:+ "Line one." +:+ nl +:+ "Line two.".

(** A header with two [Subject:] lines. *)
Definition two_subjects_post : string :=
  "Subject: first" +:+ nl +:+ "Subject: second" +:+ nl +:+ nl +:+ "text".

(** A post with only a header line and no blank line. *)
Definition bare_subject_post : string := "Subject:".

(** A post whose header and body are separated by CR LF CR LF. *)
Definition crlf_post : string :=
  "Subject: hi" +:+ crlf +:+ crlf +:+ "body".

(** [SubjectBodyExtractor()] *)
Definition the_splitter : SubjectBodyExtractor.t :=
  SubjectBodyExtractor.Build_t.

(** The data of the [ItemSelector] docstring. *)
Definition docstring_data : gmap string (list Z) :=
  {[ "a" := [1; 5; 2; 5; 2; 8]%Z; "b" := [9; 4; 1; 4; 1; 3]%Z ]}.

(** Two sub-pipelines with outputs of shapes (3,2) and (3,4), combined
    with the weights 0.5 and 1.0. *)
Definition first_output : matrix :=
  [ [float_lit 1; float_lit 2];
    [float_lit 3; float_lit 4];
    [float_lit 5; float_lit 6] ].

Definition second_output : matrix :=
  [ [float_lit 1; float_lit 0; float_lit 0; float_lit 7];
    [float_lit 0; float_lit 1; float_lit 0; float_lit 8];
    [float_lit 0; float_lit 0; float_lit 1; float_lit 9] ].

Definition two_pipelines : FeatureUnion.t FieldBatch :=
  {| FeatureUnion.transformer_list :=
       [ ("first", λ _, ret first_output);
         ("second", λ _, ret second_output) ];
     FeatureUnion.transformer_weights :=
       {[ "first" := float_lit 0.5; "second" := float_lit 1.0 ]} |}.

(** A text-cleaning helper that removes nothing, for the examples. *)
Definition keep_all (text : string) : string := text.

(** ** The selectors of a configuration *)

(** The keys of the [ItemSelector]s an estimator is built from, in the
    order the notebook writes them. *)
Fixpoint selector_keys (e : estimator) : list string :=
  match e with
  | ItemSelector_ key => [key]
  | Pipeline_ steps =>
      (fix keys_of (l : list (string * estimator)) : list string :=
         match l with
         | [] => []
         | (_, e') :: l' => selector_keys e' ++ keys_of l'
         end) steps
  | FeatureUnion_ transformer_list _ =>
      (fix keys_of (l : list (string * estimator)) : list string :=
         match l with
         | [] => []
         | (_, e') :: l' => selector_keys e' ++ keys_of l'
         end) transformer_list
  | _ => []
  end.

(** A header whose first line is not the subject, and a body that has a
    line beginning with "Subject:" after a blank line of its own. *)
Definition reply_header : string :=
  "From: a@example.org" +:+ nl +:+ "Subject: Re: hello".

Definition reply_body : string :=
  "Dear all," +:+ nl +:+ nl +:+ "Subject: not a header".

(** * Properties *)

(** ** The string methods *)

Section PyStrings.

Import Py.

Lemma append_nil_l (s : string) : "" +:+ s = s.
Proof. reflexivity. Qed.

Lemma append_cons (c : ascii) (s t : string) :
  String c s +:+ t = String c (s +:+ t).
Proof. reflexivity. Qed.

Lemma append_nil_r (s : string) : s +:+ "" = s.
Proof. induction s as [|c s IH]; [reflexivity|]. by rewrite append_cons, IH. Qed.

Lemma append_assoc (s t u : string) : (s +:+ t) +:+ u = s +:+ t +:+ u.
Proof.
  induction s as [|c s IH]; [reflexivity|]. by rewrite !append_cons, IH.
Qed.

Lemma len_append (s t : string) : len (s +:+ t) = len s + len t.
Proof.
  induction s as [|c s IH]; [reflexivity|].
  rewrite append_cons. unfold len in *. simpl. by rewrite IH.
Qed.

Lemma startswith_append (p r : string) : startswith (p +:+ r) p = true.
Proof.
  induction p as [|c p IH]; [reflexivity|].
  rewrite append_cons. simpl. by rewrite Ascii.eqb_refl, IH.
Qed.

Lemma startswith_inv (s p : string) :
  startswith s p = true → ∃ r, s = p +:+ r.
Proof.
  revert s. induction p as [|c p IH]; intros s H.
  - by exists s.
  - destruct s as [|a s]; [discriminate|]. simpl in H.
    apply andb_prop in H as [Hc Hs]. apply Ascii.eqb_eq in Hc as ->.
    destruct (IH _ Hs) as [r ->]. by exists r.
Qed.

Lemma startswith_iff (s p : string) :
  startswith s p = true ↔ ∃ r, s = p +:+ r.
Proof.
  split; [apply startswith_inv|]. intros [r ->]. apply startswith_append.
Qed.

Lemma slice_from_append (p r : string) : slice_from (len p) (p +:+ r) = r.
Proof. induction p as [|c p IH]; [reflexivity|]. by rewrite append_cons. Qed.

Lemma startswith_slice (s p : string) :
  startswith s p = true → s = p +:+ slice_from (len p) s.
Proof.
  intros [r ->]%startswith_inv. by rewrite slice_from_append.
Qed.

Lemma find_sep_unfold (sep s : string) :
  find_sep sep s =
    if startswith s sep then Some ("", slice_from (len sep) s)
    else
      match s with
      | EmptyString => None
      | String c s' =>
          match find_sep sep s' with
          | Some (before, after) => Some (String c before, after)
          | None => None
          end
      end.
Proof. by destruct s. Qed.

(** What [find_sep] returns is a decomposition of the string around
    [sep]... *)
Lemma find_sep_Some (sep s a b : string) :
  find_sep sep s = Some (a, b) → s = a +:+ sep +:+ b.
Proof.
  revert a b. induction s as [|c s IH]; intros a b; rewrite find_sep_unfold.
  - destruct (startswith "" sep) eqn:E; [|done].
    intros [= <- <-]. by apply startswith_slice.
  - destruct (startswith (String c s) sep) eqn:E.
    + intros [= <- <-]. by apply startswith_slice.
    + destruct (find_sep sep s) as [[a0 b0]|] eqn:F; [|done].
      intros [= <- <-]. by rewrite (IH _ _ eq_refl).
Qed.

(** ... and no occurrence of [sep] starts earlier. *)
Lemma find_sep_first (sep s a b : string) :
  find_sep sep s = Some (a, b) →
  ∀ a' b', s = a' +:+ sep +:+ b' → len a ≤ len a'.
Proof.
  revert a b. induction s as [|c s IH]; intros a b; rewrite find_sep_unfold.
  - destruct (startswith "" sep); [|done]. intros [= <- <-] ??. simpl. lia.
  - destruct (startswith (String c s) sep) eqn:E.
    { intros [= <- <-] ??. simpl. lia. }
    destruct (find_sep sep s) as [[a0 b0]|] eqn:F; [|done].
    intros [= <- <-] a' b' Hs. destruct a' as [|c' a'].
    + rewrite append_nil_l in Hs. rewrite Hs, startswith_append in E. done.
    + rewrite append_cons in Hs. injection Hs as _ Hs.
      specialize (IH _ _ eq_refl _ _ Hs). unfold len in *. simpl. lia.
Qed.

Lemma find_sep_None (sep s : string) :
  find_sep sep s = None ↔ ¬ occurs sep s.
Proof.
  split.
  - induction s as [|c s IH]; rewrite find_sep_unfold.
    + destruct (startswith "" sep) eqn:E; [done|]. intros _ [a [b Hs]].
      destruct a; [|done]. rewrite append_nil_l in Hs.
      by rewrite Hs, startswith_append in E.
    + destruct (startswith (String c s) sep) eqn:E; [done|].
      destruct (find_sep sep s) as [[a0 b0]|] eqn:F; [done|].
      intros _ [a [b Hs]]. destruct a as [|c' a].
      * rewrite append_nil_l in Hs. by rewrite Hs, startswith_append in E.
      * rewrite append_cons in Hs. injection Hs as _ Hs.
        apply IH; [done|]. by exists a, b.
  - intros Hno. destruct (find_sep sep s) as [[a b]|] eqn:F; [|done].
    destruct Hno. exists a, b. by apply find_sep_Some.
Qed.

Lemma find_sep_Some_occurs (sep s : string) (r : string * string) :
  find_sep sep s = Some r → occurs sep s.
Proof.
  destruct r as [a b]. intros H. exists a, b. by apply find_sep_Some.
Qed.

Lemma partition_absent (s sep : string) :
  ¬ occurs sep s → partition s sep = (s, "", "").
Proof. intros H. unfold partition. by apply find_sep_None in H as ->. Qed.

Lemma partition_present (s sep : string) :
  occurs sep s →
  ∃ a b, partition s sep = (a, sep, b) ∧ s = a +:+ sep +:+ b ∧
         ∀ a' b', s = a' +:+ sep +:+ b' → len a ≤ len a'.
Proof.
  intros H. unfold partition.
  destruct (find_sep sep s) as [[a b]|] eqn:F.
  - exists a, b. eauto using find_sep_Some, find_sep_first.
  - by apply find_sep_None in F.
Qed.

Lemma split_not_nil (s : string) (c : ascii) : split s c ≠ [].
Proof.
  destruct s as [|a s]; simpl; [done|].
  destruct (Ascii.eqb a c); [done|]. by destruct (split s c).
Qed.

(** [split] loses nothing: joining the lines gives the string back. *)
Lemma join_split (s : string) (c : ascii) : join c (split s c) = s.
Proof.
  induction s as [|a s IH]; [done|]. simpl.
  destruct (Ascii.eqb a c) eqn:E.
  - apply Ascii.eqb_eq in E as ->.
    pose proof (split_not_nil s c). destruct (split s c) eqn:F; [done|].
    change (join c ("" :: s0 :: l)) with ("" +:+ String c (join c (s0 :: l))).
    by rewrite IH.
  - pose proof (split_not_nil s c). destruct (split s c) as [|l ls]; [done|].
    destruct ls as [|l' ls].
    + simpl in *. by rewrite IH.
    + change (join c (String a l :: l' :: ls))
        with (String a l +:+ String c (join c (l' :: ls))).
      rewrite append_cons. f_equal. exact IH.
Qed.

(** No line of a [split] contains the separator. *)
Lemma split_lines_clean (s : string) (c : ascii) :
  Forall (λ line, count line c = 0) (split s c).
Proof.
  induction s as [|a s IH]; simpl.
  - by constructor.
  - destruct (Ascii.eqb a c) eqn:E.
    + by constructor.
    + pose proof (split_not_nil s c). destruct (split s c) as [|l ls]; [done|].
      inversion IH; subst. constructor; [|done]. simpl. by rewrite E.
Qed.

Lemma length_split (s : string) (c : ascii) :
  length (split s c) = S (count s c).
Proof.
  induction s as [|a s IH]; [done|]. simpl.
  destruct (Ascii.eqb a c); simpl.
  - by rewrite IH.
  - pose proof (split_not_nil s c). by destruct (split s c).
Qed.

(** [count] counts the characters equal to [c]. *)
Lemma count_filter (s : string) (c : ascii) :
  count s c = length (filter (λ a, a = c) (String.list_ascii_of_string s)).
Proof.
  induction s as [|a s IH]; [done|]. simpl. rewrite filter_cons.
  destruct (Ascii.eqb a c) eqn:E.
  - apply Ascii.eqb_eq in E. rewrite decide_True by done. simpl. by rewrite IH.
  - apply Ascii.eqb_neq in E. by rewrite decide_False.
Qed.

End PyStrings.

(** ** SubjectBodyExtractor: the scan for the subject line *)

Section SubjectScan.

Import Py SubjectBodyExtractor.

Lemma scan_lines_absent (lines : list string) (prefix sub : string) :
  Forall (λ line, startswith line prefix = false) lines →
  scan_lines lines prefix sub = sub.
Proof.
  induction 1 as [|line lines Hline _ IH]; [done|].
  simpl. by rewrite Hline.
Qed.

Lemma scan_lines_first (pre post : list string) (prefix rest sub : string) :
  Forall (λ line, startswith line prefix = false) pre →
  scan_lines (pre ++ (prefix +:+ rest) :: post) prefix sub = rest.
Proof.
  induction 1 as [|line pre Hline _ IH]; simpl.
  - by rewrite startswith_append, slice_from_append.
  - by rewrite Hline.
Qed.

(** Every list of lines either has no line with the prefix or splits
    around the first one. *)
Lemma first_match (lines : list string) (prefix : string) :
  Forall (λ line, startswith line prefix = false) lines ∨
  ∃ pre rest post,
    lines = pre ++ (prefix +:+ rest) :: post ∧
    Forall (λ line, startswith line prefix = false) pre.
Proof.
  induction lines as [|line lines IH]; [by left|].
  destruct (startswith line prefix) eqn:E.
  - right. apply startswith_inv in E as [rest ->].
    by exists [], rest, lines.
  - destruct IH as [IH|(pre & rest & post & -> & Hpre)].
    + left. by constructor.
    + right. exists (line :: pre), rest, post. split; [done|by constructor].
Qed.

End SubjectScan.

(** ** SubjectBodyExtractor: the loop over the posts *)

Section SubjectBodyLoop.

Import Py SubjectBodyExtractor.

Variable strip_newsgroup_footer : string → string.
Variable strip_newsgroup_quoting : string → string.

Let body_of' := body_of strip_newsgroup_footer strip_newsgroup_quoting.
Let step' := step strip_newsgroup_footer strip_newsgroup_quoting.

Lemma insert_length_app {A : Type} (l k : list A) (x y : A) :
  <[length l := x]> (l ++ y :: k) = l ++ x :: k.
Proof. induction l as [|a l IH]; simpl; [done|by f_equal]. Qed.

Lemma rec_store_ok (a : FieldBatch) (f : string) (col : list pyobj)
    (i : nat) (v : pyobj) :
  a !! f = Some col → i < length col →
  rec_store a f i v = ret (<[f := <[i := v]> col]> a).
Proof.
  intros Hf Hi. unfold rec_store, rec_field. rewrite Hf. simpl.
  by rewrite decide_True.
Qed.

Lemma np_recarray_columns (n : nat) :
  np_recarray n ["subject"; "body"] =
    columns (replicate n PyNone) (replicate n PyNone).
Proof. reflexivity. Qed.

Lemma dom_columns (subjects bodies : list pyobj) :
  dom (columns subjects bodies) = ({["subject"; "body"]} : gset string).
Proof. unfold columns. rewrite !dom_insert_L, dom_empty_L. set_solver. Qed.

(** One iteration stores the subject and the body of the post at its
    index, provided the index is inside both columns. *)
Lemma step_columns (subjects bodies : list pyobj) (i : nat) (text : string) :
  i < length subjects → i < length bodies →
  step' (columns subjects bodies) i text =
    ret (columns (<[i := PyStr (subject_of text)]> subjects)
                 (<[i := PyStr (body_of' text)]> bodies)).
Proof.
  intros Hs Hb. unfold step', step, body_of', body_of, subject_of, headers_of.
  destruct (partition text blank_line) as [[headers sep] bod]. simpl.
  unfold columns.
  rewrite (rec_store_ok _ "body" bodies) by by simplify_map_eq.
  simpl.
  rewrite (rec_store_ok _ "subject" subjects) by by simplify_map_eq.
  reflexivity.
Qed.

Lemma for_enumerate_columns (posts : list string) (subjects bodies : list pyobj) :
  length subjects = length bodies →
  for_enumerate step' (length subjects) posts
    (columns (subjects ++ replicate (length posts) PyNone)
             (bodies ++ replicate (length posts) PyNone)) =
  ret (columns (subjects ++ (PyStr ∘ subject_of <$> posts))
               (bodies ++ (PyStr ∘ body_of' <$> posts))).
Proof.
  revert subjects bodies.
  induction posts as [|text posts IH]; intros subjects bodies Hlen.
  - reflexivity.
  - simpl. rewrite step_columns.
    2,3: rewrite length_app; simpl; lia.
    simpl. rewrite insert_length_app, Hlen, insert_length_app, <- Hlen.
    rewrite (cons_middle _ subjects), (cons_middle _ bodies), !app_assoc.
    replace (S (length subjects))
      with (length (subjects ++ [PyStr (subject_of text)]))
      by (rewrite length_app; simpl; lia).
    rewrite IH by (rewrite !length_app; simpl; lia).
    by rewrite <- !app_assoc.
Qed.

(** The transform returns, never raises, and its result has the two
    columns filled from the posts in order. *)
Lemma transform_columns (self : SubjectBodyExtractor.t) (posts : list string) :
  transform strip_newsgroup_footer strip_newsgroup_quoting self posts =
    ret (columns (PyStr ∘ subject_of <$> posts) (PyStr ∘ body_of' <$> posts)).
Proof.
  unfold transform. rewrite np_recarray_columns.
  exact (for_enumerate_columns posts [] [] eq_refl).
Qed.

End SubjectBodyLoop.

(** ** The Document Splitter *)

Section DocumentSplitter.

Import Py SubjectBodyExtractor.

Variable strip_newsgroup_footer : string → string.
Variable strip_newsgroup_quoting : string → string.

Let body_of' := body_of strip_newsgroup_footer strip_newsgroup_quoting.
Let transform' := transform strip_newsgroup_footer strip_newsgroup_quoting.

(** The header text is the part before the first blank-line boundary, or
    the whole post when there is none. *)
Lemma headers_of_spec (text : string) :
  (¬ occurs blank_line text ∧ headers_of text = text) ∨
  (∃ bod, text = headers_of text +:+ blank_line +:+ bod ∧
          ∀ a b, text = a +:+ blank_line +:+ b → len (headers_of text) ≤ len a).
Proof.
  unfold headers_of.
  destruct (find_sep blank_line text) as [[a b]|] eqn:F.
  - right. apply find_sep_Some_occurs in F.
    destruct (partition_present _ _ F) as (a' & b' & -> & Ha & Hfirst).
    by exists b'.
  - left. apply find_sep_None in F. split; [done|].
    by rewrite partition_absent.
Qed.

Lemma body_of_absent (text : string) :
  ¬ occurs blank_line text →
  body_of' text = strip_newsgroup_quoting (strip_newsgroup_footer "").
Proof.
  intros H. unfold body_of', body_of. by rewrite partition_absent.
Qed.

Lemma field_at_columns_subject (subjects bodies : list pyobj) (i : nat) :
  field_at (columns subjects bodies) "subject" i = subjects !! i.
Proof. reflexivity. Qed.

Lemma field_at_columns_body (subjects bodies : list pyobj) (i : nat) :
  field_at (columns subjects bodies) "body" i = bodies !! i.
Proof. reflexivity. Qed.

(** After the transform, entry [i] of each column holds the subject and
    the body of post [i]. *)
Lemma transform_field_at (self : SubjectBodyExtractor.t) (posts : list string)
    (i : nat) (text : string) :
  posts !! i = Some text →
  ∃ fb, transform' self posts = ret fb ∧
        field_at fb "subject" i = Some (PyStr (subject_of text)) ∧
        field_at fb "body" i = Some (PyStr (body_of' text)).
Proof.
  intros Hi. eexists. split; [apply transform_columns|].
  rewrite field_at_columns_subject, field_at_columns_body.
  rewrite !list_lookup_fmap, Hi. done.
Qed.

(** C2: for every batch of N posts the transform returns a Field Batch
    with exactly the fields "subject" and "body"; each is a sequence of N
    strings, and entry i of each is computed from post i alone. *)
Theorem splitter_fields_in_order (self : SubjectBodyExtractor.t)
    (posts : list string) :
  ∃ (fb : FieldBatch) (subjects bodies : list string),
    transform' self posts = ret fb ∧
    dom fb = ({["subject"; "body"]} : gset string) ∧
    fb !! "subject" = Some (PyStr <$> subjects) ∧
    fb !! "body" = Some (PyStr <$> bodies) ∧
    length subjects = length posts ∧
    length bodies = length posts ∧
    subjects = subject_of <$> posts ∧
    bodies = body_of' <$> posts.
Proof.
  exists (columns (PyStr ∘ subject_of <$> posts) (PyStr ∘ body_of' <$> posts)),
    (subject_of <$> posts), (body_of' <$> posts).
  split; [apply transform_columns|].
  split; [apply dom_columns|].
  rewrite <- !list_fmap_compose, !length_fmap. done.
Qed.

(** C3: the header text is the part of the post before the first
    blank-line boundary (the whole post when there is none); it is scanned
    line by line for a line beginning with "Subject:"; the subject is the
    rest of such a line, with only the prefix removed, and the empty string
    when there is no such line.  The post with the header line
    "Subject: Hello World" gets the subject " Hello World", the leading
    space kept. *)
Theorem subject_is_rest_of_subject_line (self : SubjectBodyExtractor.t)
    (posts : list string) (i : nat) (text : string) :
  posts !! i = Some text →
  ((¬ occurs blank_line text ∧ headers_of text = text) ∨
   (∃ bod, text = headers_of text +:+ blank_line +:+ bod ∧
      ∀ a b, text = a +:+ blank_line +:+ b → len (headers_of text) ≤ len a)) ∧
  (∃ fb sub,
     transform' self posts = ret fb ∧
     field_at fb "subject" i = Some (PyStr sub) ∧
     (Forall (λ line, startswith line "Subject:" = false)
        (split (headers_of text) LF) → sub = "") ∧
     (Exists (λ line, startswith line "Subject:" = true)
        (split (headers_of text) LF) →
      "Subject:" +:+ sub ∈ split (headers_of text) LF)) ∧
  (∃ fb,
     transform' self [hello_post] = ret fb ∧
     field_at fb "subject" 0 = Some (PyStr " Hello World") ∧
     field_at fb "body" 0 =
       Some (PyStr (strip_newsgroup_quoting (strip_newsgroup_footer
                      ("Line one." +:+ nl +:+ "Line two."))))).
Proof.
  intros Hi. split; [apply headers_of_spec|]. split.
  - destruct (transform_field_at self posts i text Hi) as (fb & Hfb & Hs & _).
    exists fb, (subject_of text). split; [done|]. split; [done|].
    unfold subject_of.
    destruct (first_match (split (headers_of text) LF) "Subject:")
      as [Hnone|(pre & rest & post & Hlines & Hpre)].
    + split; [intros _; by apply scan_lines_absent|].
      intros Hex. apply Exists_exists in Hex as (line & Hin & Hline).
      rewrite Forall_forall in Hnone. specialize (Hnone _ Hin). congruence.
    + rewrite Hlines, scan_lines_first by done. split.
      * intros Hnone. apply Forall_app in Hnone as [_ Hnone].
        apply Forall_cons in Hnone as [Hnone _].
        by rewrite startswith_append in Hnone.
      * intros _. set_solver.
  - destruct (transform_field_at self [hello_post] 0 hello_post eq_refl)
      as (fb & Hfb & Hs & Hb).
    exists fb. split; [done|]. split; [exact Hs|exact Hb].
Qed.

(** C9: when several header lines begin with "Subject:", the first one
    gives the subject; the lines after it are not looked at. *)
Theorem first_subject_line_wins (self : SubjectBodyExtractor.t)
    (posts : list string) (i : nat) (text : string)
    (pre : list string) (rest : string) (post : list string) :
  posts !! i = Some text →
  split (headers_of text) LF = pre ++ ("Subject:" +:+ rest) :: post →
  Forall (λ line, startswith line "Subject:" = false) pre →
  ∃ fb, transform' self posts = ret fb ∧
        field_at fb "subject" i = Some (PyStr rest).
Proof.
  intros Hi Hlines Hpre.
  destruct (transform_field_at self posts i text Hi) as (fb & Hfb & Hs & _).
  exists fb. split; [done|]. rewrite Hs. unfold subject_of.
  by rewrite Hlines, scan_lines_first.
Qed.

(** C6: the transform has no error case: it returns on every batch of
    strings.  A post without a "Subject:" header line gets the empty
    subject, and a post without a blank-line boundary gets the empty body,
    the cleaning helpers leaving the empty string empty. *)
Theorem splitter_never_fails (self : SubjectBodyExtractor.t)
    (posts : list string) :
  strip_newsgroup_footer "" = "" →
  strip_newsgroup_quoting "" = "" →
  ∃ fb, transform' self posts = ret fb ∧
    ∀ i text, posts !! i = Some text →
      (Forall (λ line, startswith line "Subject:" = false)
         (split (headers_of text) LF) →
       field_at fb "subject" i = Some (PyStr "")) ∧
      (¬ occurs blank_line text →
       field_at fb "body" i = Some (PyStr "")).
Proof.
  intros Hf Hq. eexists. split; [apply transform_columns|].
  intros i text Hi.
  rewrite field_at_columns_subject, field_at_columns_body.
  rewrite !list_lookup_fmap, Hi. simpl. split.
  - intros Hnone. unfold subject_of. by rewrite scan_lines_absent.
  - intros Hno. fold body_of'. by rewrite body_of_absent, Hf, Hq.
Qed.

(** C10, amended: a post without the two-character boundary LF LF is all
    header: a "Subject:" line anywhere in it still gives the subject, which
    is the rest of the first such line (empty when that line is just
    "Subject:"), and the body is empty, the cleaning helpers leaving the
    empty string empty.  A post separated by CR LF CR LF has no such
    boundary and is not split. *)
Theorem no_blank_line_all_header (self : SubjectBodyExtractor.t)
    (posts : list string) (i : nat) (text : string) :
  strip_newsgroup_footer "" = "" →
  strip_newsgroup_quoting "" = "" →
  posts !! i = Some text →
  ¬ occurs blank_line text →
  headers_of text = text ∧
  (∃ fb, transform' self posts = ret fb ∧
     field_at fb "body" i = Some (PyStr "") ∧
     ∀ pre rest post,
       split text LF = pre ++ ("Subject:" +:+ rest) :: post →
       Forall (λ line, startswith line "Subject:" = false) pre →
       field_at fb "subject" i = Some (PyStr rest)) ∧
  (¬ occurs blank_line crlf_post ∧ headers_of crlf_post = crlf_post).
Proof.
  intros Hf Hq Hi Hno.
  assert (Hh : headers_of text = text).
  { unfold headers_of. by rewrite partition_absent. }
  split; [done|]. split.
  - destruct (transform_field_at self posts i text Hi) as (fb & Hfb & Hs & Hb).
    exists fb. split; [done|]. split.
    + by rewrite Hb, body_of_absent, Hf, Hq.
    + intros pre rest post Hlines Hpre. rewrite Hs. unfold subject_of.
      by rewrite Hh, Hlines, scan_lines_first.
  - assert (Hcrlf : ¬ occurs blank_line crlf_post)
      by (by apply find_sep_None).
    split; [done|]. unfold headers_of. by rewrite partition_absent.
Qed.

End DocumentSplitter.

(** *** The splitter on the example posts *)

Section DocumentSplitterExamples.

Import Py SubjectBodyExtractor.

Lemma subject_is_rest_of_subject_line_witness :
  ∃ fb sub,
    transform keep_all keep_all the_splitter [hello_post] = ret fb ∧
    field_at fb "subject" 0 = Some (PyStr sub) ∧
    "Subject:" +:+ sub ∈ split (headers_of hello_post) LF.
Proof.
  destruct (subject_is_rest_of_subject_line keep_all keep_all the_splitter
              [hello_post] 0 hello_post eq_refl)
    as (_ & (fb & sub & Hfb & Hsub & _ & Hin) & _).
  exists fb, sub. split; [exact Hfb|]. split; [exact Hsub|].
  apply Hin. apply Exists_cons_tl, Exists_cons_hd. reflexivity.
Defined.

Lemma first_subject_line_wins_witness :
  ∃ fb,
    transform keep_all keep_all the_splitter [two_subjects_post] = ret fb ∧
    field_at fb "subject" 0 = Some (PyStr " first").
Proof.
  apply (first_subject_line_wins keep_all keep_all the_splitter
           [two_subjects_post] 0 two_subjects_post
           [] " first" ["Subject: second"]).
  - reflexivity.
  - reflexivity.
  - constructor.
Defined.

Lemma splitter_never_fails_witness :
  ∃ fb,
    transform keep_all keep_all the_splitter ["no structure at all"] = ret fb ∧
    field_at fb "subject" 0 = Some (PyStr "") ∧
    field_at fb "body" 0 = Some (PyStr "").
Proof.
  destruct (splitter_never_fails keep_all keep_all the_splitter
              ["no structure at all"] eq_refl eq_refl) as (fb & Hfb & Hall).
  exists fb. split; [exact Hfb|].
  destruct (Hall 0 "no structure at all" eq_refl) as [Hs Hb].
  split.
  - apply Hs. repeat constructor.
  - apply Hb. apply find_sep_None. reflexivity.
Defined.

Lemma no_blank_line_all_header_witness :
  headers_of crlf_post = crlf_post ∧
  ∃ fb,
    transform keep_all keep_all the_splitter [crlf_post] = ret fb ∧
    field_at fb "body" 0 = Some (PyStr "") ∧
    field_at fb "subject" 0 = Some (PyStr (" hi" +:+ String CR EmptyString)).
Proof.
  destruct (no_blank_line_all_header keep_all keep_all the_splitter
              [crlf_post] 0 crlf_post eq_refl eq_refl eq_refl)
    as (Hh & (fb & Hfb & Hb & Hs) & _).
  { apply find_sep_None. reflexivity. }
  split; [exact Hh|]. exists fb. split; [exact Hfb|]. split; [exact Hb|].
  apply (Hs [] _ [String CR EmptyString; "body"]); [reflexivity|constructor].
Defined.

(** The post that is just the line "Subject:" has no blank-line boundary
    and has a line beginning with "Subject:", and its subject is empty. *)
Lemma bare_subject_line_gives_empty_subject :
  ¬ occurs blank_line bare_subject_post ∧
  Exists (λ line, startswith line "Subject:" = true)
    (split bare_subject_post LF) ∧
  ∃ fb,
    transform keep_all keep_all the_splitter [bare_subject_post] = ret fb ∧
    field_at fb "subject" 0 = Some (PyStr "").
Proof.
  split; [by apply find_sep_None|].
  split; [by apply Exists_cons_hd|].
  eexists. split; [apply transform_columns|]. reflexivity.
Qed.

End DocumentSplitterExamples.

(** ** The Field Selector *)

Section FieldSelector.

Import ItemSelector.

Context {V : Type}.

(** C5, amended: on a batch without the configured key the transform
    raises and returns no value at all; the exception is the one the
    batch's own indexing raises: KeyError, of the LookupError class, for a
    dict, and ValueError, which is not of that class, for a record array
    such as the one the splitter returns. *)
Theorem selector_missing_key_raises (self : ItemSelector.t) :
  (∀ data_dict : gmap string V,
     data_dict !! key self = None →
     transform self data_dict = raise KeyError ∧
     is_LookupError KeyError = true ∧
     (∀ v, transform self data_dict ≠ ret v)) ∧
  (∀ a : recarray,
     rec_columns a !! key self = None →
     transform self a = raise ValueError ∧
     is_LookupError ValueError = false ∧
     (∀ col, transform self a ≠ ret col)).
Proof.
  split.
  - intros data_dict Hnone.
    assert (Ht : transform self data_dict = raise KeyError).
    { unfold transform, getitem, gmap_GetItem, dict_getitem.
      by rewrite Hnone. }
    rewrite Ht. split; [done|]. split; [done|]. intros v. discriminate.
  - intros a Hnone.
    assert (Ht : transform self a = raise ValueError).
    { unfold transform, getitem, recarray_GetItem, rec_field.
      by rewrite Hnone. }
    rewrite Ht. split; [done|]. split; [done|]. intros col. discriminate.
Qed.

(** C7: on a batch with the configured key the transform returns the
    sequence stored under it, unchanged; fit returns the selector itself,
    so the selector is the same before and after and transforms alike.
    The same holds of a record array and the column of the field. *)
Theorem selector_returns_field {X Y : Type} (self : ItemSelector.t)
    (data_dict : gmap string V) (v : V) (x : X) (y : option Y) :
  data_dict !! key self = Some v →
  transform self data_dict = ret v ∧
  fit self x y = self ∧
  transform (fit self x y) data_dict = ret v ∧
  (∀ (a : recarray) (col : list pyobj),
     rec_columns a !! key self = Some col →
     transform self a = ret col ∧
     transform (fit self x y) a = ret col).
Proof.
  intros Hv. unfold fit.
  assert (Ht : transform self data_dict = ret v).
  { unfold transform, getitem, gmap_GetItem, dict_getitem. by rewrite Hv. }
  split; [done|]. split; [done|]. split; [done|].
  intros a col Hcol.
  assert (Ha : transform self a = ret col).
  { unfold transform, getitem, recarray_GetItem, rec_field. by rewrite Hcol. }
  done.
Qed.

End FieldSelector.

Lemma selector_missing_key_raises_witness :
  (ItemSelector.transform {| ItemSelector.key := "c" |} docstring_data
     = raise KeyError ∧
   is_LookupError KeyError = true ∧
   (∀ v, ItemSelector.transform {| ItemSelector.key := "c" |} docstring_data
           ≠ ret v)) ∧
  (ItemSelector.transform {| ItemSelector.key := "missing" |}
     (RecArray (columns [PyStr " hi"] [PyStr "text"])) = raise ValueError ∧
   is_LookupError ValueError = false ∧
   (∀ col, ItemSelector.transform {| ItemSelector.key := "missing" |}
             (RecArray (columns [PyStr " hi"] [PyStr "text"])) ≠ ret col)).
Proof.
  split.
  - apply (proj1 (selector_missing_key_raises {| ItemSelector.key := "c" |})
             docstring_data).
    reflexivity.
  - apply (proj2 (selector_missing_key_raises
                    (V := list Z) {| ItemSelector.key := "missing" |})
             (RecArray (columns [PyStr " hi"] [PyStr "text"]))).
    reflexivity.
Defined.

(** The splitter's output for a post with subject and body is a record
    array without a field "missing"; the selector of "missing" raises
    ValueError on it, and so no exception of the LookupError class. *)
Lemma selector_on_record_array_raises_value_error :
  SubjectBodyExtractor.transform keep_all keep_all the_splitter
    ["Subject: hi" +:+ nl +:+ nl +:+ "text"]
    = ret (columns [PyStr " hi"] [PyStr "text"]) ∧
  columns [PyStr " hi"] [PyStr "text"] !! "missing" = None ∧
  ¬ ∃ e, ItemSelector.transform {| ItemSelector.key := "missing" |}
           (RecArray (columns [PyStr " hi"] [PyStr "text"])) = raise e ∧
         is_LookupError e = true.
Proof.
  split; [apply transform_columns|]. split; [reflexivity|].
  intros (e & He & Hlookup).
  change (raise ValueError = raise e :> result (list pyobj)) in He.
  injection He as <-. discriminate.
Qed.

Lemma selector_returns_field_witness :
  ItemSelector.transform {| ItemSelector.key := "a" |} docstring_data =
    ret [1; 5; 2; 5; 2; 8]%Z ∧
  ItemSelector.fit {| ItemSelector.key := "a" |} docstring_data (@None unit) =
    {| ItemSelector.key := "a" |} ∧
  ItemSelector.transform
    (ItemSelector.fit {| ItemSelector.key := "a" |} docstring_data (@None unit))
    docstring_data = ret [1; 5; 2; 5; 2; 8]%Z.
Proof.
  destruct (selector_returns_field {| ItemSelector.key := "a" |} docstring_data
              [1; 5; 2; 5; 2; 8]%Z docstring_data (@None unit) eq_refl)
    as (H1 & H2 & H3 & _).
  split; [exact H1|]. split; [exact H2|exact H3].
Defined.

(** ** The Statistics Extractor *)

Section StatisticsExtractor.

Import Py TextStats.

Lemma len_list_ascii (s : string) :
  len s = length (String.list_ascii_of_string s).
Proof. induction s as [|a s IH]; [done|]. unfold len in *. simpl. by rewrite IH. Qed.

(** C4: for N bodies the transform returns N records in the same order;
    the record of a body has exactly the entries "length", its number of
    characters, and "num_sentences", its number of "." characters.  The
    body "Hello. World." gives length 13 and num_sentences 2. *)
Theorem text_stats_records (self : TextStats.t) (posts : list string) :
  length (transform self posts) = length posts ∧
  (∀ i text, posts !! i = Some text →
     ∃ record, transform self posts !! i = Some record ∧
       dom record = ({["length"; "num_sentences"]} : gset string) ∧
       record !! "length" =
         Some (Z.of_nat (length (String.list_ascii_of_string text))) ∧
       record !! "num_sentences" =
         Some (Z.of_nat (length (filter (λ a, a = "."%char)
                                   (String.list_ascii_of_string text))))) ∧
  transform self ["Hello. World."] =
    [ {[ "length" := 13%Z; "num_sentences" := 2%Z ]} ].
Proof.
  split; [apply length_fmap|]. split; [|reflexivity].
  intros i text Hi. eexists. split.
  - unfold transform. rewrite list_lookup_fmap, Hi. reflexivity.
  - rewrite <- len_list_ascii, <- count_filter. split; [|split].
    + rewrite dom_insert_L, dom_singleton_L. set_solver.
    + by rewrite lookup_insert_eq.
    + rewrite lookup_insert_ne by done. by rewrite lookup_singleton_eq.
Qed.

End StatisticsExtractor.

(** ** The pipeline *)

(** C8: the union of the pipeline has exactly the three sub-pipelines
    "subject", "body_bow" and "body_stats", in this order, with the weights
    0.8, 0.5 and 1.0. *)
Theorem union_names_and_weights :
  ∃ union,
    named_step pipeline "union" = Some union ∧
    union_names union = ["subject"; "body_bow"; "body_stats"] ∧
    dom (union_weights union) =
      ({["subject"; "body_bow"; "body_stats"]} : gset string) ∧
    union_weights union !! "subject" = Some (float_lit 0.8) ∧
    union_weights union !! "body_bow" = Some (float_lit 0.5) ∧
    union_weights union !! "body_stats" = Some (float_lit 1.0).
Proof.
  eexists. split; [reflexivity|]. split; [reflexivity|].
  split; [|by repeat split].
  simpl. rewrite !dom_insert_L, dom_singleton_L. set_solver.
Qed.

(** ** The Feature Combiner *)

Section FeatureCombiner.

Import FeatureUnion.

Context {X : Type}.

Lemma float_lit_one : float_lit 1.0 = 1%Qc.
Proof. by apply Qc_is_canon. Qed.

Lemma scale_one (M : matrix) : scale (float_lit 1.0) M = M.
Proof.
  unfold scale. rewrite float_lit_one.
  induction M as [|r M IH]; [done|]. simpl. rewrite IH. f_equal.
  induction r as [|q r IHr]; [done|]. simpl. by rewrite IHr, Qcmult_1_l.
Qed.

Lemma length_scale (w : Qc) (M : matrix) : length (scale w M) = length M.
Proof. apply length_map. Qed.

Lemma row_scale (w : Qc) (M : matrix) (i : nat) :
  row (scale w M) i = Qcmult w <$> row M i.
Proof.
  unfold row, scale. change (map (map (Qcmult w)) M) with (map (Qcmult w) <$> M).
  rewrite list_lookup_fmap. by destruct (M !! i).
Qed.

(** Running the sub-pipelines succeeds exactly when each of them does, and
    returns their matrices under their names, in list order. *)
Lemma run_all_Forall2 (tl : list (string * (X → result matrix))) (x : X)
    (Ms : list (string * matrix)) :
  run_all tl x = ret Ms ↔
  Forall2 (λ nt nM, nM.1 = nt.1 ∧ nt.2 x = ret nM.2) tl Ms.
Proof.
  revert Ms. induction tl as [|[name trans] tl IH]; intros Ms; simpl.
  - split.
    + intros [= <-]. constructor.
    + intros H. by inversion H.
  - split.
    + destruct (trans x) as [e|M] eqn:Ht; [done|]. simpl.
      destruct (run_all tl x) as [e|Ms'] eqn:Hr; [done|]. simpl.
      intros [= <-]. constructor; [done|]. by apply IH.
    + intros H. inversion H as [|? [name' M] ? Ms' [Hn Ht] Hrest]; subst.
      simpl in *. subst. rewrite Ht. simpl.
      apply IH in Hrest. by rewrite Hrest.
Qed.

Lemma hstack_cons (M : list (list Qc)) (Ms : list matrix) :
  Ms ≠ [] →
  hstack (M :: Ms) =
    (do R <- hstack Ms;
     if decide (length M = length R) then ret (zip_with app M R)
     else raise ValueError).
Proof. by destruct Ms. Qed.

(** Stacking matrices of [n] rows gives [n] rows, each the concatenation
    of the corresponding rows in list order. *)
Lemma hstack_rows (Ms : list matrix) (n : nat) :
  Ms ≠ [] →
  Forall (λ M, length M = n) Ms →
  ∃ R, hstack Ms = ret R ∧ length R = n ∧
       ∀ i, i < n → R !! i = Some (concat ((λ M, row M i) <$> Ms)).
Proof.
  induction Ms as [|M Ms IH]; [done|]. intros _ Hall.
  apply Forall_cons in Hall as [HM Hall].
  destruct Ms as [|M' Ms].
  - exists M. split; [done|]. split; [done|]. intros i Hi. simpl.
    unfold row. rewrite <- HM in Hi.
    destruct (lookup_lt_is_Some_2 _ _ Hi) as [r ->]. simpl.
    by rewrite app_nil_r.
  - destruct (IH ltac:(done) Hall) as (R & HR & Hlen & Hrows).
    rewrite hstack_cons by done. rewrite HR. simpl.
    rewrite decide_True by congruence.
    eexists. split; [done|]. split.
    + rewrite length_zip_with. lia.
    + intros i Hi. rewrite lookup_zip_with, (Hrows i Hi).
      rewrite <- HM in Hi.
      destruct (lookup_lt_is_Some_2 _ _ Hi) as [r Hr]. rewrite Hr.
      assert (row M i = r) as <- by (unfold row; by rewrite Hr).
      reflexivity.
Qed.

(** The combiner on sub-pipelines that all succeed with [n] rows. *)
Lemma transform_rows (self : FeatureUnion.t X) (x : X)
    (Ms : list (string * matrix)) (n : nat) :
  Forall2 (λ nt nM, nM.1 = nt.1 ∧ nt.2 x = ret nM.2)
    (transformer_list self) Ms →
  Ms ≠ [] →
  Forall (λ nM, length nM.2 = n) Ms →
  ∃ R, transform self x = ret R ∧ length R = n ∧
       ∀ i, i < n →
         R !! i = Some (concat ((λ nM, Qcmult (weight_of self nM.1)
                                          <$> row nM.2 i) <$> Ms)).
Proof.
  intros Hrun Hne Hall. apply run_all_Forall2 in Hrun.
  unfold transform. rewrite Hrun. simpl.
  destruct (hstack_rows ((λ nM, scale (weight_of self nM.1) nM.2) <$> Ms) n)
    as (R & HR & Hlen & Hrows).
  - by destruct Ms.
  - apply Forall_fmap. eapply Forall_impl; [exact Hall|].
    intros nM HnM. simpl. by rewrite length_scale.
  - exists R. split; [done|]. split; [done|]. intros i Hi.
    rewrite (Hrows i Hi), <- list_fmap_compose. do 2 f_equal.
    apply list_fmap_ext. intros _ nM _. simpl. apply row_scale.
Qed.

Lemma has_shape_lookup (M : matrix) (n m i : nat) (r : list Qc) :
  has_shape M n m → M !! i = Some r → i < n ∧ length r = m.
Proof.
  intros [Hn Hm] Hi. split.
  - rewrite <- Hn. by eapply lookup_lt_Some.
  - rewrite Forall_forall in Hm. apply Hm. by eapply list_elem_of_lookup_2.
Qed.

Lemma fmap_mult_one (r : list Qc) : Qcmult (float_lit 1.0) <$> r = r.
Proof.
  rewrite float_lit_one. induction r as [|q r IH]; [done|].
  rewrite fmap_cons, IH. by rewrite Qcmult_1_l.
Qed.

(** C1: when every sub-pipeline succeeds on the batch with a matrix of n
    rows, the combiner returns a matrix of n rows whose row i is the
    concatenation, in the configured list order, of row i of each
    sub-pipeline's matrix with every entry multiplied by the weight of that
    sub-pipeline.  With two sub-pipelines of shapes (3,2) and (3,4) and the
    weights 0.5 and 1.0 the result has shape (3,6); its first two columns
    are 0.5 times the first output and its last four columns are the second
    output unchanged. *)
Theorem feature_union_concatenates (self : FeatureUnion.t X) (x : X) :
  (∀ (Ms : list (string * matrix)) (n : nat),
     Forall2 (λ nt nM, nM.1 = nt.1 ∧ nt.2 x = ret nM.2)
       (transformer_list self) Ms →
     Ms ≠ [] →
     Forall (λ nM, length nM.2 = n) Ms →
     ∃ R, transform self x = ret R ∧ length R = n ∧
          ∀ i, i < n →
            R !! i = Some (concat ((λ nM, Qcmult (weight_of self nM.1)
                                             <$> row nM.2 i) <$> Ms))) ∧
  (∀ (name1 name2 : string) (trans1 trans2 : X → result matrix)
     (A B : matrix),
     transformer_list self = [(name1, trans1); (name2, trans2)] →
     transformer_weights self !! name1 = Some (float_lit 0.5) →
     transformer_weights self !! name2 = Some (float_lit 1.0) →
     trans1 x = ret A →
     trans2 x = ret B →
     has_shape A 3 2 →
     has_shape B 3 4 →
     ∃ R, transform self x = ret R ∧ has_shape R 3 6 ∧
          ∀ i a b, A !! i = Some a → B !! i = Some b →
            ∃ r, R !! i = Some r ∧
                 take 2 r = Qcmult (float_lit 0.5) <$> a ∧
                 drop 2 r = b).
Proof.
  split; [intros Ms n; apply transform_rows|].
  intros name1 name2 trans1 trans2 A B Htl Hw1 Hw2 H1 H2 HA HB.
  destruct (transform_rows self x [(name1, A); (name2, B)] 3)
    as (R & HR & Hlen & Hrows).
  { rewrite Htl. repeat constructor; done. }
  { done. }
  { repeat constructor; [apply HA|apply HB]. }
  assert (Hrow : ∀ i a b, A !! i = Some a → B !! i = Some b →
            R !! i = Some ((Qcmult (float_lit 0.5) <$> a) ++ b)).
  { intros i a b Ha Hb.
    destruct (has_shape_lookup _ _ _ _ _ HA Ha) as [Hi _].
    rewrite (Hrows i Hi). simpl. unfold weight_of, row.
    rewrite Hw1, Hw2, Ha, Hb. simpl.
    by rewrite fmap_mult_one, app_nil_r. }
  exists R. split; [done|]. split.
  - split; [done|]. apply Forall_lookup. intros i r Hr.
    assert (Hi : i < 3) by (rewrite <- Hlen; by eapply lookup_lt_Some).
    destruct (lookup_lt_is_Some_2 A i) as [a Ha]; [by rewrite (proj1 HA)|].
    destruct (lookup_lt_is_Some_2 B i) as [b Hb]; [by rewrite (proj1 HB)|].
    rewrite (Hrow i a b Ha Hb) in Hr. injection Hr as <-.
    rewrite length_app, length_fmap.
    destruct (has_shape_lookup _ _ _ _ _ HA Ha) as [_ ->].
    by destruct (has_shape_lookup _ _ _ _ _ HB Hb) as [_ ->].
  - intros i a b Ha Hb. eexists. split; [by apply Hrow|].
    destruct (has_shape_lookup _ _ _ _ _ HA Ha) as [_ Hla].
    split.
    + apply take_app_length'. by rewrite length_fmap.
    + apply drop_app_length'. by rewrite length_fmap.
Qed.

End FeatureCombiner.

Lemma feature_union_concatenates_witness :
  ∃ R, FeatureUnion.transform two_pipelines (columns [] []) = ret R ∧
       FeatureUnion.has_shape R 3 6 ∧
       ∀ i a b, first_output !! i = Some a → second_output !! i = Some b →
         ∃ r, R !! i = Some r ∧
              take 2 r = Qcmult (float_lit 0.5) <$> a ∧
              drop 2 r = b.
Proof.
  apply (proj2 (feature_union_concatenates two_pipelines (columns [] []))
           "first" "second" (λ _, ret first_output) (λ _, ret second_output)).
  - reflexivity.
  - reflexivity.
  - reflexivity.
  - reflexivity.
  - reflexivity.
  - split; [reflexivity|]. repeat constructor.
  - split; [reflexivity|]. repeat constructor.
Defined.

(** * Further properties of the notebook's code *)

(** ** More on the string methods *)

Section PyStringsMore.

Import Py.

Lemma count_append (s t : string) (c : ascii) :
  count (s +:+ t) c = count s c + count t c.
Proof.
  induction s as [|a s IH]; [reflexivity|].
  rewrite append_cons. simpl. rewrite IH. lia.
Qed.

Lemma count_le_len (s : string) (c : ascii) : count s c ≤ len s.
Proof.
  induction s as [|a s IH]; [reflexivity|].
  unfold len in *. simpl. destruct (Ascii.eqb a c); lia.
Qed.

Lemma count_slice_from (n : nat) (s : string) (c : ascii) :
  count s c = 0 → count (slice_from n s) c = 0.
Proof.
  revert s. induction n as [|n IH]; intros s H; [done|].
  destruct s as [|a s]; [done|]. simpl in *. apply IH. lia.
Qed.

Lemma occurs_cons (sep s : string) (c : ascii) :
  occurs sep s → occurs sep (String c s).
Proof. intros (a & b & ->). by exists (String c a), b. Qed.

Lemma occurs_append_l (sep s t : string) :
  occurs sep s → occurs sep (t +:+ s).
Proof.
  intros H. induction t as [|c t IH]; [done|].
  rewrite append_cons. by apply occurs_cons.
Qed.

Lemma occurs_append_r (sep s t : string) :
  occurs sep s → occurs sep (s +:+ t).
Proof.
  intros (a & b & ->). exists a, (b +:+ t). by rewrite !append_assoc.
Qed.

(** A line of a joined list is a contiguous part of the joined string. *)
Lemma join_middle (c : ascii) (pre post : list string) (line : string) :
  ∃ a b, join c (pre ++ line :: post) = a +:+ line +:+ b.
Proof.
  induction pre as [|l pre IH].
  - destruct post as [|l' post].
    + exists "", "". simpl. by rewrite append_nil_r.
    + exists "", (String c (join c (l' :: post))). reflexivity.
  - destruct IH as (a & b & IH). simpl app.
    assert (Hne : ∃ x rest, pre ++ line :: post = x :: rest)
      by (destruct pre; simpl; eauto).
    destruct Hne as (x & rest & Hne).
    change (join c (l :: pre ++ line :: post)) with
      (match pre ++ line :: post with
       | [] => l
       | _ :: _ => l +:+ String c (join c (pre ++ line :: post))
       end).
    rewrite Hne, <- Hne, IH.
    exists (l +:+ String c a), b. by rewrite !append_assoc, append_cons.
Qed.

End PyStringsMore.

(** ** More on the Document Splitter *)

Section DocumentSplitterMore.

Import Py SubjectBodyExtractor.

Variable strip_newsgroup_footer : string → string.
Variable strip_newsgroup_quoting : string → string.

Let body_of' := body_of strip_newsgroup_footer strip_newsgroup_quoting.
Let transform' := transform strip_newsgroup_footer strip_newsgroup_quoting.

(** A header that neither contains a blank line nor ends in a newline is
    found again in front of the boundary that was put after it. *)
Lemma find_sep_assembled (h b : string) :
  ¬ occurs blank_line (h +:+ nl) →
  find_sep blank_line (h +:+ blank_line +:+ b) = Some (h, b).
Proof.
  induction h as [|c h IH]; intros Hno; [reflexivity|].
  rewrite append_cons, find_sep_unfold.
  destruct (startswith (String c (h +:+ blank_line +:+ b)) blank_line) eqn:E.
  - exfalso. apply Hno. simpl in E.
    apply andb_prop in E as [Hc E]. apply Ascii.eqb_eq in Hc as ->.
    destruct h as [|c' h].
    + by exists "", "".
    + rewrite append_cons in E. simpl in E.
      apply andb_prop in E as [Hc _]. apply Ascii.eqb_eq in Hc as ->.
      by exists "", (h +:+ nl).
  - rewrite IH; [done|]. intros Hocc. apply Hno.
    rewrite append_cons. by apply occurs_cons.
Qed.

Lemma headers_of_no_blank_line (text : string) :
  ¬ occurs blank_line (headers_of text).
Proof.
  destruct (headers_of_spec text) as [[Hno ->]|(bod & Htext & Hfirst)]; [done|].
  intros (a & b & Hh).
  specialize (Hfirst a (b +:+ blank_line +:+ bod)).
  rewrite Htext in Hfirst at 1. rewrite Hh in Hfirst at 1.
  rewrite !append_assoc in Hfirst. specialize (Hfirst eq_refl).
  rewrite Hh, !len_append in Hfirst. unfold len in Hfirst. simpl in Hfirst. lia.
Qed.

Lemma headers_of_prefix (text : string) :
  ∃ rest, text = headers_of text +:+ rest.
Proof.
  destruct (headers_of_spec text) as [[_ ->]|(bod & Htext & _)].
  - exists "". by rewrite append_nil_r.
  - by exists (blank_line +:+ bod).
Qed.

Lemma subject_of_one_line (text : string) : count (subject_of text) LF = 0.
Proof.
  unfold subject_of.
  destruct (first_match (split (headers_of text) LF) "Subject:")
    as [Hnone|(pre & rest & post & Hlines & Hpre)].
  - by rewrite scan_lines_absent.
  - rewrite Hlines, scan_lines_first by done.
    pose proof (split_lines_clean (headers_of text) LF) as Hclean.
    rewrite Hlines in Hclean. apply Forall_app in Hclean as [_ Hclean].
    apply Forall_cons in Hclean as [Hclean _].
    rewrite count_append in Hclean. lia.
Qed.

Lemma subject_of_in_text (text : string) :
  (Forall (λ line, startswith line "Subject:" = false)
     (split (headers_of text) LF) ∧ subject_of text = "") ∨
  occurs ("Subject:" +:+ subject_of text) text.
Proof.
  unfold subject_of.
  destruct (first_match (split (headers_of text) LF) "Subject:")
    as [Hnone|(pre & rest & post & Hlines & Hpre)].
  - left. split; [done|]. by apply scan_lines_absent.
  - right. rewrite Hlines, scan_lines_first by done.
    destruct (join_middle LF pre post ("Subject:" +:+ rest)) as (a & b & Hj).
    rewrite <- Hlines, join_split in Hj.
    destruct (headers_of_prefix text) as [tail Htext].
    rewrite Htext, Hj. apply occurs_append_r. by exists a, b.
Qed.

(** X1: a post put together from a header, the blank-line boundary and a
    body splits back into them: the stored body is the cleaned body, and
    the subject is the one found in the header lines alone, whatever the
    body holds (further blank lines, lines beginning with "Subject:").
    The header must not contain a blank line nor end in a newline. *)
Theorem assembled_post_splits_back (self : SubjectBodyExtractor.t)
    (posts : list string) (i : nat) (h b : string) :
  posts !! i = Some (h +:+ blank_line +:+ b) →
  ¬ occurs blank_line (h +:+ nl) →
  ∃ fb, transform' self posts = ret fb ∧
    field_at fb "body" i =
      Some (PyStr (strip_newsgroup_quoting (strip_newsgroup_footer b))) ∧
    field_at fb "subject" i =
      Some (PyStr (scan_lines (split h LF) "Subject:" "")).
Proof.
  intros Hi Hno.
  destruct (transform_field_at strip_newsgroup_footer strip_newsgroup_quoting
              self posts i _ Hi) as (fb & Hfb & Hs & Hb).
  exists fb. split; [done|].
  rewrite Hs, Hb. unfold body_of, subject_of, headers_of, partition.
  by rewrite find_sep_assembled.
Qed.

(** X2: the header text never contains a blank-line boundary, so splitting
    the header alone changes nothing: it is all header again and gives the
    same subject. *)
Theorem header_has_no_blank_line (text : string) :
  ¬ occurs blank_line (headers_of text) ∧
  headers_of (headers_of text) = headers_of text ∧
  subject_of (headers_of text) = subject_of text.
Proof.
  pose proof (headers_of_no_blank_line text) as Hno.
  assert (Hh : headers_of (headers_of text) = headers_of text).
  { unfold headers_of at 1. by rewrite partition_absent. }
  split; [done|]. split; [done|]. unfold subject_of. by rewrite Hh.
Qed.

(** X3: every subject the splitter returns is a single line: it contains
    no newline character. *)
Theorem subjects_are_single_lines (self : SubjectBodyExtractor.t)
    (posts : list string) :
  ∃ (fb : FieldBatch) (subjects : list string),
    transform' self posts = ret fb ∧
    fb !! "subject" = Some (PyStr <$> subjects) ∧
    Forall (λ sub, count sub LF = 0) subjects.
Proof.
  eexists _, (subject_of <$> posts).
  split; [apply transform_columns|]. split.
  - by rewrite <- list_fmap_compose.
  - apply Forall_fmap, Forall_forall. intros text _. apply subject_of_one_line.
Qed.

(** X4: the splitter makes up no subject: for each post either no header
    line begins with "Subject:" and the subject is empty, or "Subject:"
    followed by the subject is a contiguous part of the post. *)
Theorem subjects_come_from_the_posts (self : SubjectBodyExtractor.t)
    (posts : list string) :
  ∃ (fb : FieldBatch) (subjects : list string),
    transform' self posts = ret fb ∧
    fb !! "subject" = Some (PyStr <$> subjects) ∧
    Forall2 (λ text sub,
       (Forall (λ line, startswith line "Subject:" = false)
          (split (headers_of text) LF) ∧ sub = "") ∨
       occurs ("Subject:" +:+ sub) text) posts subjects.
Proof.
  eexists _, (subject_of <$> posts).
  split; [apply transform_columns|]. split.
  - by rewrite <- list_fmap_compose.
  - apply Forall2_fmap_r, Forall2_same_length_lookup. split; [done|].
    intros j text text' Hj Hj'. rewrite Hj in Hj'. injection Hj' as <-.
    apply subject_of_in_text.
Qed.

(** X5: posts are processed independently of one another: the result on
    two batches put end to end is, column by column, the result on the
    first followed by the result on the second. *)
Theorem batches_concatenate (self : SubjectBodyExtractor.t)
    (posts1 posts2 : list string) :
  ∃ subjects1 bodies1 subjects2 bodies2,
    transform' self posts1 = ret (columns subjects1 bodies1) ∧
    transform' self posts2 = ret (columns subjects2 bodies2) ∧
    transform' self (posts1 ++ posts2) =
      ret (columns (subjects1 ++ subjects2) (bodies1 ++ bodies2)) ∧
    length subjects1 = length posts1 ∧ length bodies1 = length posts1.
Proof.
  eexists _, _, _, _.
  split; [apply transform_columns|]. split; [apply transform_columns|].
  split.
  - unfold transform'. rewrite transform_columns. by rewrite !fmap_app.
  - by rewrite !length_fmap.
Qed.

End DocumentSplitterMore.

Lemma assembled_post_splits_back_witness :
  ∃ fb,
    SubjectBodyExtractor.transform keep_all keep_all the_splitter
      [reply_header +:+ SubjectBodyExtractor.blank_line +:+ reply_body]
      = ret fb ∧
    field_at fb "body" 0 = Some (PyStr reply_body) ∧
    field_at fb "subject" 0 = Some (PyStr " Re: hello").
Proof.
  apply (assembled_post_splits_back keep_all keep_all the_splitter
           [reply_header +:+ SubjectBodyExtractor.blank_line +:+ reply_body]
           0 reply_header reply_body eq_refl).
  apply find_sep_None. reflexivity.
Defined.

Section DocumentSplitterLines.

Import Py SubjectBodyExtractor.

(** X6: the lines scanned for the subject are the header text cut at its
    newlines and nothing else: joined by newlines they give the header
    back, none of them contains a newline, and there is one line more
    than the header has newlines (so at least one, also for an empty
    header). *)
Theorem scanned_lines_are_the_header (text : string) :
  join LF (split (headers_of text) LF) = headers_of text ∧
  Forall (λ line, count line LF = 0) (split (headers_of text) LF) ∧
  length (split (headers_of text) LF) = S (count (headers_of text) LF).
Proof.
  split; [apply join_split|]. split; [apply split_lines_clean|].
  apply length_split.
Qed.

(** X7: the cleaning helpers act on the body only: with any two pairs of
    helpers the splitter returns the same subject column. *)
Theorem subjects_ignore_cleaning
    (footer1 quoting1 footer2 quoting2 : string → string)
    (self : SubjectBodyExtractor.t) (posts : list string) :
  ∃ (fb1 fb2 : FieldBatch) (subjects : list pyobj),
    transform footer1 quoting1 self posts = ret fb1 ∧
    transform footer2 quoting2 self posts = ret fb2 ∧
    fb1 !! "subject" = Some subjects ∧
    fb2 !! "subject" = Some subjects.
Proof.
  eexists _, _, _.
  split; [apply transform_columns|]. split; [apply transform_columns|].
  split; reflexivity.
Qed.

End DocumentSplitterLines.

(** ** The branches of the pipeline *)

Section PipelineBranches.

Import Py SubjectBodyExtractor.

Variable strip_newsgroup_footer : string → string.
Variable strip_newsgroup_quoting : string → string.

Let body_of' := body_of strip_newsgroup_footer strip_newsgroup_quoting.
Let transform' := transform strip_newsgroup_footer strip_newsgroup_quoting.

Lemma selector_on_columns (k : string) (subjects bodies : list pyobj) :
  k = "subject" ∨ k = "body" →
  ItemSelector.transform {| ItemSelector.key := k |}
    (RecArray (columns subjects bodies))
    = ret (if decide (k = "subject") then subjects else bodies).
Proof. by intros [-> | ->]. Qed.

(** X8: every selector the pipeline configures names a field the
    splitter produces: on the splitter's output for any batch none of
    them raises, and each returns a column of one string per post. *)
Theorem pipeline_selectors_never_raise (posts : list string) :
  selector_keys pipeline = ["subject"; "body"; "body"] ∧
  Forall (λ k,
      ∃ (fb : FieldBatch) (col : list pyobj),
        transform' the_splitter posts = ret fb ∧
        ItemSelector.transform {| ItemSelector.key := k |} (RecArray fb)
          = ret col ∧
        length col = length posts ∧
        Forall (λ o, ∃ s, o = PyStr s) col)
    (selector_keys pipeline).
Proof.
  split; [reflexivity|].
  assert (Hk : ∀ k, k = "subject" ∨ k = "body" →
            ∃ (fb : FieldBatch) (col : list pyobj),
              transform' the_splitter posts = ret fb ∧
              ItemSelector.transform {| ItemSelector.key := k |}
                (RecArray fb) = ret col ∧
              length col = length posts ∧
              Forall (λ o, ∃ s, o = PyStr s) col).
  { intros k Hk. eexists _, _.
    split; [apply transform_columns|].
    split; [by apply selector_on_columns|].
    destruct (decide (k = "subject")).
    - rewrite length_fmap. split; [done|].
      apply Forall_fmap, Forall_forall. intros text _. simpl. eauto.
    - rewrite length_fmap. split; [done|].
      apply Forall_fmap, Forall_forall. intros text _. simpl. eauto. }
  change (selector_keys pipeline) with ["subject"; "body"; "body"].
  repeat constructor; apply Hk; auto.
Qed.

(** X9: the body_stats branch up to its vectorizer: the splitter, the
    selector of "body" and the statistics extractor in a row return, for
    any batch, one record per post, in order, holding the length and the
    number of "." of the cleaned body of that post. *)
Theorem body_stats_branch (stats : TextStats.t) (posts : list string) :
  ∃ (fb : FieldBatch) (col : list pyobj) (bodies : list string),
    transform' the_splitter posts = ret fb ∧
    ItemSelector.transform {| ItemSelector.key := "body" |} (RecArray fb)
      = ret col ∧
    col = PyStr <$> bodies ∧
    length (TextStats.transform stats bodies) = length posts ∧
    Forall2 (λ text record,
        record !! "length" = Some (Z.of_nat (len (body_of' text))) ∧
        record !! "num_sentences" =
          Some (Z.of_nat (count (body_of' text) "."%char)))
      posts (TextStats.transform stats bodies).
Proof.
  eexists _, _, (body_of' <$> posts).
  split; [apply transform_columns|].
  split; [reflexivity|].
  split; [by rewrite <- list_fmap_compose|].
  unfold TextStats.transform. rewrite !length_fmap. split; [done|].
  rewrite <- list_fmap_compose. apply Forall2_fmap_r.
  apply Forall2_same_length_lookup. split; [done|].
  intros j text text' Hj Hj'. rewrite Hj in Hj'. injection Hj' as <-.
  simpl. split.
  - by rewrite lookup_insert_eq.
  - rewrite lookup_insert_ne by done. by rewrite lookup_singleton_eq.
Qed.

End PipelineBranches.

(** ** More on the Statistics Extractor *)

Section StatisticsExtractorMore.

Import Py TextStats.

(** X10: in every record the sentence count lies between 0 and the
    length. *)
Theorem sentence_count_within_length (self : TextStats.t)
    (posts : list string) :
  Forall (λ record : gmap string Z,
      ∃ l n, record !! "length" = Some l ∧
             record !! "num_sentences" = Some n ∧
             (0 ≤ n ≤ l)%Z)
    (transform self posts).
Proof.
  unfold transform. apply Forall_fmap, Forall_forall. intros text _.
  exists (Z.of_nat (len text)), (Z.of_nat (count text "."%char)). simpl.
  split; [by rewrite lookup_insert_eq|]. split.
  - rewrite lookup_insert_ne by done. by rewrite lookup_singleton_eq.
  - pose proof (count_le_len text "."%char). lia.
Qed.

(** X11: both statistics add up over concatenation: the record of two
    texts put end to end has the sum of their lengths and the sum of
    their sentence counts. *)
Theorem statistics_add_up (self : TextStats.t) (text1 text2 : string) :
  ∃ l1 n1 l2 n2 : Z,
    transform self [text1; text2; text1 +:+ text2] =
      [ {[ "length" := l1; "num_sentences" := n1 ]};
        {[ "length" := l2; "num_sentences" := n2 ]};
        {[ "length" := (l1 + l2)%Z; "num_sentences" := (n1 + n2)%Z ]} ].
Proof.
  eexists _, _, _, _. unfold transform. simpl.
  by rewrite len_append, count_append, !Nat2Z.inj_add.
Qed.

End StatisticsExtractorMore.
